(** * HackDB, Tutorial 3 (Notebooks/03.SimpleMean.ipynb): [StellarPopulation]

    A shallow embedding of the notebook's [StellarPopulation] class and of the
    library calls it makes, followed by the properties of its three methods.

    - Python floats and the elements of a float64 [ndarray] are IEEE binary64
      numbers: Rocq's primitive [float], whose operations round to nearest even
      as the machine's do.
    - The notebook is Python 2 ([print] statements): integers are unbounded,
      here [Z], and [map] and [range] build lists.
    - An instance is the record of its attributes, each of them absent until a
      method assigns it.
    - A method is a computation over the instance it is called on and the
      process-wide state it touches (numpy's global random generator and the
      wall clock); it either returns or raises, and in both cases leaves an
      instance and a world behind. *)

From Stdlib Require Import Floats ZArith.
From stdpp Require Import base tactics option list list_numbers strings pretty.

Set Warnings "-inexact-float".
Local Open Scope Z_scope.

(** ** Python values *)

(** [str(i)] for an integer [i]: its decimal digits, with a leading minus sign
    when negative. *)
Definition str (i : Z) : string := pretty i.

(** [range(n)] of Python 2: the list 0, 1, ..., n-1, empty when [n <= 0]. *)
Definition range (n : Z) : list Z := seqZ 0 n.

(** [len(a)] *)
Definition len {A} (a : list A) : Z := Z.of_nat (length a).

(** Conversion of an integer to the nearest binary64 number, as in float
    division of a float by an integer count. *)
Definition float_of_int (n : Z) : float :=
  SF2Prim (binary_normalize prec emax n 0 false).

(** A binary64 number in the specification format is finite when it is a
    zero or has a mantissa and an exponent. *)
Definition SF_finite (x : spec_float) : bool :=
  match x with S754_zero _ | S754_finite _ _ _ => true | _ => false end.

(** The exceptions the modelled code can raise. [AttributeError] carries the
    name of the attribute that was read before any assignment to it. *)
Inductive exception : Type :=
  | AttributeError (attribute : string)
  | ValueError.

(** A float64 array of one dimension. *)
Abbreviation ndarray := (list float).

(** ** The process-wide state *)

(** numpy's global generator. Every generator state determines the sequence of
    standard-normal deviates it will hand out from then on; the state is that
    sequence together with the number of deviates already taken from it. *)
Record RandomState : Type := mkRandomState {
  deviates : nat → float;
  consumed : nat
}.

(** The wall clock: the readings (seconds since the epoch) that successive
    calls of [time.time()] will obtain, and the number of calls so far. *)
Record Clock : Type := mkClock {
  readings : nat → float;
  reads : nat
}.

Record World : Type := mkWorld {
  global_rng : RandomState;
  clock : Clock
}.

(** ** Computations that return or raise *)

(** A method call on an object of type [Obj] ends by returning a value or by
    raising an exception; either way it leaves the object and the world in
    some state. *)
Inductive outcome (Obj A : Type) : Type :=
  | Returns (a : A) (self : Obj) (w : World)
  | Raises (e : exception) (self : Obj) (w : World).
Arguments Returns {Obj A} a self w.
Arguments Raises {Obj A} e self w.

Definition Py (Obj A : Type) : Type := Obj → World → outcome Obj A.

(** Sequencing, with stdpp's notation [x ← c; k] and [c;; k]: an exception
    raised by [c] skips [k]. *)
Instance Py_ret {Obj} : MRet (Py Obj) := λ A a self w, Returns a self w.

Instance Py_bind {Obj} : MBind (Py Obj) := λ A B k c self w,
  match c self w with
  | Returns a self' w' => k a self' w'
  | Raises e self' w' => Raises e self' w'
  end.

(** Reading an attribute of [self]: [AttributeError] when it was never set. *)
Definition getattr {Obj A} (name : string) (field : Obj → option A)
  : Py Obj A :=
  λ self w,
    match field self with
    | Some v => Returns v self w
    | None => Raises (AttributeError name) self w
    end.

(** Assigning to an attribute of [self]. *)
Definition setattr {Obj} (update : Obj → Obj) : Py Obj unit :=
  λ self w, Returns tt (update self) w.

(** The object and the world a computation leaves behind, what it returned
    and what it raised. *)
Definition final_self {Obj A} (o : outcome Obj A) : Obj :=
  match o with Returns _ self _ | Raises _ self _ => self end.

Definition final_world {Obj A} (o : outcome Obj A) : World :=
  match o with Returns _ _ w | Raises _ _ w => w end.

Definition returned {Obj A} (o : outcome Obj A) : option A :=
  match o with Returns a _ _ => Some a | Raises _ _ _ => None end.

Definition raised {Obj A} (o : outcome Obj A) : option exception :=
  match o with Returns _ _ _ => None | Raises e _ _ => Some e end.

(** ** numpy *)

(** [s] is a floating-point sum of the elements of [a]: every element enters
    exactly once, the additions are binary64 additions, and they may be
    grouped and ordered in any way (numpy accumulates short arrays in one
    pass and long ones pairwise, in blocks). *)
Inductive float_sum : ndarray → float → Prop :=
  | sum_empty : float_sum [] 0%float
  | sum_single x : float_sum [x] x
  | sum_add a b s t :
      float_sum a s → float_sum b t → float_sum (a ++ b) (s + t)%float
  | sum_reorder a b s : a ≡ₚ b → float_sum a s → float_sum b s.

(** What the model leaves to the numpy at hand: the order in which
    [np.add.reduce] adds up an array, and the stream of standard-normal
    deviates that [np.random.seed(s)] sets the global generator to. *)
Class NumPy : Type := {
  add_reduce : ndarray → float;
  seeded_deviates : Z → nat → float
}.

Module np.

(** [c * a] and [c + a] for a Python float [c] and an array [a]: the scalar
    is broadcast, the operation is elementwise. *)
Definition multiply (c : float) (a : ndarray) : ndarray :=
  (λ x, c * x)%float <$> a.

Definition add (c : float) (a : ndarray) : ndarray :=
  (λ x, c + x)%float <$> a.

(** [np.mean(a)]: the sum of the elements divided by their number. On an
    empty array numpy warns and carries on with 0.0 / 0. *)
Definition mean `{NumPy} (a : ndarray) : float :=
  (add_reduce a / float_of_int (len a))%float.

(** The largest value of numpy's index type [npy_intp], a signed 64-bit
    integer, and the size in bytes of a float64. An array is refused when its
    size in bytes does not fit in [npy_intp]: a float64 array of one
    dimension can have at most [max_length] elements, 2^60 - 1. *)
Definition intp_max : Z := 2 ^ 63 - 1.

Definition itemsize : Z := 8.

Definition max_length : Z := intp_max `div` itemsize.

Module random.

(** The next [k] deviates of generator [g], in the order it hands them out. *)
Definition drawn (g : RandomState) (k : nat) : ndarray :=
  (λ i, deviates g (consumed g + i)%nat) <$> seq 0 k.

(** [np.random.randn(n)]: the next [n] deviates of the global generator, as
    an array. A negative [n] is refused with [ValueError] (negative
    dimensions are not allowed), and so is an [n] above [max_length]
    (maximum allowed dimension exceeded, array is too big); nothing is
    drawn then. Within these bounds the allocation is taken to succeed:
    the memory of the machine is not modelled. *)
Definition randn {Obj} (n : Z) : Py Obj ndarray := λ self w,
  if decide (n < 0) then Raises ValueError self w
  else if decide (max_length < n) then Raises ValueError self w
  else
    let g := global_rng w in
    let k := Z.to_nat n in
    Returns (drawn g k) self
      (mkWorld (mkRandomState (deviates g) (consumed g + k)) (clock w)).

(** [np.random.seed(s)] for an integer [s]: the global generator restarts
    from the state that the seed determines; a seed that is not an unsigned
    32-bit number is refused with [ValueError]. *)
Definition seed `{NumPy} {Obj} (s : Z) : Py Obj unit := λ self w,
  if decide (0 ≤ s < 2 ^ 32) then
    Returns tt self (mkWorld (mkRandomState (seeded_deviates s) 0) (clock w))
  else Raises ValueError self w.

End random.

End np.

(** ** The wall clock, [import time as wallclock] *)

Module wallclock.

(** [wallclock.time()]: the next reading. *)
Definition time {Obj} : Py Obj float := λ self w,
  let c := clock w in
  Returns (readings c (reads c)) self
    (mkWorld (global_rng w) (mkClock (readings c) (S (reads c)))).

End wallclock.

(** ** The class *)

Module StellarPopulation.

(** The attributes an instance can carry. [distance] is assigned by
    [__init__], the other four by [generate]. *)
Record instance : Type := mkInstance {
  distance : option float;
  N : option Z;
  rms_error : option float;
  d_obs : option ndarray;
  id : option (list string)
}.

(** A new object, before [__init__] has run. *)
Definition blank : instance := mkInstance None None None None None.

(** The assignments [self.<attribute> = v]. *)
Definition set_distance (v : float) (s : instance) : instance :=
  mkInstance (Some v) (N s) (rms_error s) (d_obs s) (id s).
Definition set_N (v : Z) (s : instance) : instance :=
  mkInstance (distance s) (Some v) (rms_error s) (d_obs s) (id s).
Definition set_rms_error (v : float) (s : instance) : instance :=
  mkInstance (distance s) (N s) (Some v) (d_obs s) (id s).
Definition set_d_obs (v : ndarray) (s : instance) : instance :=
  mkInstance (distance s) (N s) (rms_error s) (Some v) (id s).
Definition set_id (v : list string) (s : instance) : instance :=
  mkInstance (distance s) (N s) (rms_error s) (d_obs s) (Some v).

(** [[
    def __init__(self, distance):
        self.distance = distance
        return
    ]] *)
Definition __init__ (distance : float) : Py instance unit :=
  setattr (set_distance distance);;
  mret tt.

(** [[
    def generate(self, N=1000,rms_error=0.1):
        self.N = N
        self.rms_error = rms_error
        self.d_obs = self.distance + (self.rms_error * self.distance) * np.random.randn(self.N)
        self.id = map(str, range(self.N))
        return
    ]]
    An argument the caller leaves out is [None] here and takes its default.
    The operands of the array expression are evaluated from left to right. *)
Definition generate (N : option Z) (rms_error : option float)
  : Py instance unit :=
  let N := default 1000 N in
  let rms_error := default 0.1%float rms_error in
  setattr (set_N N);;
  setattr (set_rms_error rms_error);;
  d ← getattr "distance" StellarPopulation.distance;
  r ← getattr "rms_error" StellarPopulation.rms_error;
  d' ← getattr "distance" StellarPopulation.distance;
  n ← getattr "N" StellarPopulation.N;
  z ← np.random.randn n;
  setattr (set_d_obs (np.add d (np.multiply (r * d') z)));;
  n ← getattr "N" StellarPopulation.N;
  setattr (set_id (str <$> range n));;
  mret tt.

(** [[
    def estimate_mean_distance(self):
        import time as wallclock
        start = wallclock.time()
        mu = np.mean(self.d_obs)
        end = wallclock.time()
        time = (end-start) * 1e3
        return mu, time
    ]] *)
Definition estimate_mean_distance `{NumPy} : Py instance (float * float) :=
  start ← wallclock.time;
  a ← getattr "d_obs" StellarPopulation.d_obs;
  let mu := np.mean a in
  end_ ← wallclock.time;
  let time := ((end_ - start) * 1e3)%float in
  mret (mu, time).

(** [StellarPopulation(distance)]: a new object, initialised. *)
Definition new (distance : float) : World → outcome instance unit :=
  __init__ distance blank.

End StellarPopulation.

Import StellarPopulation.

(** ** A concrete setting, for running the model *)

(** A numpy that adds up arrays in a single pass from the left, and whose
    seeded generator is a small periodic stand-in. *)
Instance single_pass_numpy : NumPy := {|
  add_reduce := foldl PrimFloat.add 0%float;
  seeded_deviates := λ s i, float_of_int ((s + Z.of_nat i) `mod` 7 - 3)
|}.

(** A world whose generator alternates 0.5 and -1.25 and whose clock advances
    by a quarter of a millisecond per reading. *)
Definition sample_world : World :=
  mkWorld
    (mkRandomState (λ i, if Nat.even i then 0.5 else -1.25)%float 0)
    (mkClock (λ i, 100 + float_of_int (Z.of_nat i) * 0.00025)%float 0).

(** The world after the same generator has handed out one deviate. *)
Definition later_world : World :=
  mkWorld (mkRandomState (deviates (global_rng sample_world)) 1)
    (clock sample_world).

(** The notebook's [cluster = StellarPopulation(3.0)]. *)
Definition cluster : instance := final_self (new 3 sample_world).

(** [cluster.generate(3, 0.5)] in the sample world. *)
Definition sampled : outcome instance unit :=
  generate (Some 3) (Some 0.5%float) cluster sample_world.

(** ** What a call leaves behind, in closed form *)

(** The world after the random source has handed out [k] more deviates. *)
Definition advance (k : nat) (w : World) : World :=
  mkWorld
    (mkRandomState (deviates (global_rng w)) (consumed (global_rng w) + k))
    (clock w).

(** The instance of distance [d] that holds the sample of size [n] and noise
    level [r] made from the next deviates of [g]. *)
Definition sample_of (g : RandomState) (d : float) (n : Z) (r : float)
  : instance :=
  mkInstance (Some d) (Some n) (Some r)
    (Some (np.add d (np.multiply (r * d) (np.random.drawn g (Z.to_nat n)))))
    (Some (str <$> range n)).

(** ** The notebook's cells that use the class *)

Module SimpleMean.

(** The objects of the two mapped classes, [Population] and [Star], as the
    cells build them: with every column given. *)
Inductive mapped : Type :=
  | Population (id : Z) (distance : float)
  | Star (id population_id : Z) (distance : float).

(** The notebook's global variables that the two cells read or write, and
    the objects handed to [session.add] since the last commit, oldest
    first. Cells run in order, so a global is defined when it is read. *)
Record Notebook : Type := mkNotebook {
  N_stars_per_cluster : Z;
  clusters : list instance;
  session : list mapped;
  j : Z
}.

(** What can stop a cell: an exception coming out of a method of the class,
    or an index outside a list. *)
Inductive uncaught : Type :=
  | Propagated (e : exception)
  | IndexError.

Inductive cell_outcome (A : Type) : Type :=
  | Completes (a : A) (nb : Notebook) (w : World)
  | Stops (e : uncaught) (nb : Notebook) (w : World).
Arguments Completes {A} a nb w.
Arguments Stops {A} e nb w.

Definition Cell (A : Type) : Type := Notebook → World → cell_outcome A.

Instance Cell_ret : MRet Cell := λ A a nb w, Completes a nb w.

Instance Cell_bind : MBind Cell := λ A B k c nb w,
  match c nb w with
  | Completes a nb' w' => k a nb' w'
  | Stops e nb' w' => Stops e nb' w'
  end.

Definition notebook_after {A} (o : cell_outcome A) : Notebook :=
  match o with Completes _ nb _ | Stops _ nb _ => nb end.

Definition world_after {A} (o : cell_outcome A) : World :=
  match o with Completes _ _ w | Stops _ _ w => w end.

Definition stopped {A} (o : cell_outcome A) : option uncaught :=
  match o with Completes _ _ _ => None | Stops e _ _ => Some e end.

(** [for x in xs: body] *)
Fixpoint for_ {A} (xs : list A) (body : A → Cell unit) : Cell unit :=
  match xs with
  | [] => mret tt
  | x :: rest => body x;; for_ rest body
  end.

(** The position that [l[k]] denotes: a negative index counts from the end,
    and there is none outside the list. *)
Definition index {A} (l : list A) (k : Z) : option nat :=
  let i := if decide (k < 0) then k + len l else k in
  if decide (0 ≤ i < len l) then Some (Z.to_nat i) else None.

(** [clusters[k].method(...)]: the method runs on the object at that place
    of the list, and what it does to the object stays in the list. *)
Definition on_cluster {A} (k : Z) (method : Py instance A) : Cell A :=
  λ nb w,
    match
      i ← index (clusters nb) k; obj ← clusters nb !! i; Some (i, obj)
    with
    | None => Stops IndexError nb w
    | Some (i, obj) =>
        let put obj' :=
          mkNotebook (N_stars_per_cluster nb) (<[i:=obj']> (clusters nb))
            (session nb) (j nb) in
        match method obj w with
        | Returns a obj' w' => Completes a (put obj') w'
        | Raises e obj' w' => Stops (Propagated e) (put obj') w'
        end
    end.

(** [StellarPopulation(d)] as an expression of a cell. *)
Definition construct (d : float) : Cell instance := λ nb w,
  match new d w with
  | Returns _ obj w' => Completes obj nb w'
  | Raises e _ w' => Stops (Propagated e) nb w'
  end.

(** Reading a global variable. *)
Definition global {A} (variable : Notebook → A) : Cell A := λ nb w,
  Completes (variable nb) nb w.

Definition set_clusters (v : list instance) : Cell unit := λ nb w,
  Completes tt (mkNotebook (N_stars_per_cluster nb) v (session nb) (j nb)) w.

Definition set_j (v : Z) : Cell unit := λ nb w,
  Completes tt
    (mkNotebook (N_stars_per_cluster nb) (clusters nb) (session nb) v) w.

(** [clusters.append(obj)] *)
Definition clusters_append (obj : instance) : Cell unit := λ nb w,
  set_clusters (clusters nb ++ [obj]) nb w.

(** [session.add(obj)] *)
Definition session_add (obj : mapped) : Cell unit := λ nb w,
  Completes tt
    (mkNotebook (N_stars_per_cluster nb) (clusters nb) (session nb ++ [obj])
       (j nb)) w.

(** [[
    clusters = []
    for k in range(10):
        d_c = float(k)
        clusters.append(StellarPopulation(d_c))
        clusters[k].generate(N_stars_per_cluster)
        session.add(Population(id=k, distance=d_c))
    ]] *)
Definition add_cluster (k : Z) : Cell unit :=
  let d_c := float_of_int k in
  obj ← construct d_c;
  clusters_append obj;;
  n ← global N_stars_per_cluster;
  on_cluster k (generate (Some n) None);;
  session_add (Population k d_c).

Definition make_clusters : Cell unit :=
  set_clusters [];;
  for_ (range 10) add_cluster.

(** [[
    j = 0
    for k in range(10):
        for d_s in clusters[k].d_obs:
            session.add(Star(id=j, population_id=k, distance=d_s))
            j += 1
    ]] *)
Definition add_star (k : Z) (d_s : float) : Cell unit :=
  id ← global j;
  session_add (Star id k d_s);;
  v ← global j;
  set_j (v + 1).

Definition add_stars_of (k : Z) : Cell unit :=
  obs ← on_cluster k (getattr "d_obs" d_obs);
  for_ obs (add_star k).

Definition add_stars : Cell unit :=
  set_j 0;;
  for_ (range 10) add_stars_of.

End SimpleMean.

(** ** What the two cells leave behind, in closed form *)

(** The cluster that turn [k] of the first loop makes, when the cell starts
    in world [w] with [n] stars per cluster, and the row it stages. *)
Definition cluster_at (w : World) (n : Z) (k : nat) : instance :=
  sample_of (global_rng (advance (k * Z.to_nat n) w))
    (float_of_int (Z.of_nat k)) n 0.1.

Definition population_at (k : nat) : SimpleMean.mapped :=
  SimpleMean.Population (Z.of_nat k) (float_of_int (Z.of_nat k)).

(** The primary key of a mapped object. *)
Definition mapped_id (o : SimpleMean.mapped) : Z :=
  match o with SimpleMean.Population id _ | SimpleMean.Star id _ _ => id end.

(** The rows staged for the observations [obs] of cluster [k] when the
    counter stands at [start], and for a list of samples, one per cluster
    from cluster [k] on. *)
Definition stars_of (start k : Z) (obs : ndarray) : list SimpleMean.mapped :=
  imap (λ i d, SimpleMean.Star (start + Z.of_nat i) k d) obs.

Fixpoint stars_from (start : Z) (k : nat) (samples : list ndarray)
  : list SimpleMean.mapped :=
  match samples with
  | [] => []
  | obs :: rest =>
      stars_of start (Z.of_nat k) obs
        ++ stars_from (start + len obs) (S k) rest
  end.

(** A notebook in which an earlier run has left one cluster, a staged
    population and a counter; two stars per cluster. *)
Definition small_notebook : SimpleMean.Notebook :=
  SimpleMean.mkNotebook 2 [cluster] [SimpleMean.Population 7 7%float] 5.

(** The notebook after the cell that makes the clusters has run on it in the
    sample world, and the ten samples it holds. *)
Definition made : SimpleMean.Notebook :=
  Eval vm_compute in
    SimpleMean.notebook_after
      (SimpleMean.make_clusters small_notebook sample_world).

Definition made_samples : list ndarray :=
  Eval vm_compute in (λ c, default [] (d_obs c)) <$> SimpleMean.clusters made.

(** A notebook with a single cluster, the one sampled above. *)
Definition short_notebook : SimpleMean.Notebook :=
  SimpleMean.mkNotebook 3 [final_self sampled] [] 9.

(** * Properties *)

(** ** Python values *)

Lemma max_length_value : np.max_length = 2 ^ 60 - 1.
Proof. reflexivity. Qed.

Lemma max_length_1000 : 0 ≤ 1000 ≤ np.max_length.
Proof. by vm_compute. Qed.


Instance str_inj : Inj (=) (=) str.
Proof. unfold str. apply _. Qed.

Example str_range :
  str <$> range 3 = ["0"; "1"; "2"] ∧ str 120 = "120" ∧ range (-2) = [].
Proof. repeat split. Qed.

Lemma length_range n : 0 ≤ n → len (range n) = n.
Proof. intros Hn. unfold len, range. rewrite length_seqZ. lia. Qed.


(** ** Binary64 facts *)

Lemma is_finite_spec x : is_finite x = SF_finite (Prim2SF x).
Proof.
  unfold is_finite, is_nan, is_infinity.
  rewrite !FloatAxioms.eqb_spec, abs_spec.
  change (Prim2SF infinity) with (S754_infinity false).
  destruct (Prim2SF x) as [[]|[]| |s m e]; simpl; try done.
  unfold SFeqb at 1, SFcompare.
  rewrite Z.compare_refl, Pos.compare_cont_refl. by destruct s.
Qed.



(** ** Sums *)


Lemma single_pass_is_sum a : float_sum a (foldl PrimFloat.add 0%float a).
Proof.
  induction a as [|x a IH] using rev_ind.
  - constructor.
  - rewrite foldl_app. simpl. apply sum_add; [done|constructor].
Qed.

(** ** Running the methods *)

Ltac py_run :=
  unfold generate, estimate_mean_distance, __init__, new, np.random.randn,
    np.random.seed, wallclock.time, getattr, setattr, mbind, mret,
    Py_bind, Py_ret; simpl.

Section generate.
Context (self : instance) (w : World) (d : float).
Hypothesis constructed : distance self = Some d.

(** What a call with a sample size that numpy accepts leaves behind. *)
Lemma generate_returns N r :
  0 ≤ N ≤ np.max_length →
  generate (Some N) (Some r) self w =
    Returns tt
      (mkInstance (Some d) (Some N) (Some r)
         (Some (np.add d (np.multiply (r * d)
                 (np.random.drawn (global_rng w) (Z.to_nat N)))))
         (Some (str <$> range N)))
      (mkWorld
         (mkRandomState (deviates (global_rng w))
            (consumed (global_rng w) + Z.to_nat N))
         (clock w)).
Proof.
  intros HN. py_run. repeat (rewrite constructed; simpl).
  destruct (decide (N < 0)); [lia|].
  destruct (decide (np.max_length < N)); [lia|].
  unfold set_id, set_d_obs, set_rms_error, set_N. simpl.
  by rewrite constructed.
Qed.

(** What a call with a sample size beyond numpy's bound leaves behind. *)
Lemma generate_refused N r :
  np.max_length < N →
  generate (Some N) (Some r) self w =
    Raises ValueError (set_rms_error r (set_N N self)) w.
Proof.
  intros HN. py_run. repeat (rewrite constructed; simpl).
  destruct (decide (N < 0)); [done|].
  destruct (decide (np.max_length < N)); [done|lia].
Qed.

(** What a call with a negative sample size leaves behind. *)
Lemma generate_raises N r :
  N < 0 →
  generate (Some N) (Some r) self w =
    Raises ValueError (set_rms_error r (set_N N self)) w.
Proof.
  intros HN. py_run. repeat (rewrite constructed; simpl).
  destruct (decide (N < 0)); [done|lia].
Qed.
End generate.

(** On an object that [__init__] never ran on, the first attribute read
    fails. *)
Lemma generate_unconstructed (self : instance) (w : World) N r :
  distance self = None →
  generate (Some N) (Some r) self w =
    Raises (AttributeError "distance") (set_rms_error r (set_N N self)) w.
Proof. intros Hd. py_run. by rewrite Hd. Qed.

(** Arguments left out take their defaults. *)
Lemma generate_default_arguments N r :
  generate N r = generate (Some (default 1000 N)) (Some (default 0.1%float r)).
Proof. reflexivity. Qed.

Lemma lookup_drawn g k (i : nat) :
  (i < k)%nat →
  np.random.drawn g k !! i = Some (deviates g (consumed g + i)).
Proof.
  intros Hi. unfold np.random.drawn.
  by rewrite list_lookup_fmap, lookup_seq_lt.
Qed.

Lemma length_observations d c g k :
  length (np.add d (np.multiply c (np.random.drawn g k))) = k.
Proof.
  unfold np.add, np.multiply, np.random.drawn.
  by rewrite !length_fmap, length_seq.
Qed.

Lemma lookup_observations d c g k (i : nat) :
  (i < k)%nat →
  np.add d (np.multiply c (np.random.drawn g k)) !! i =
    Some (d + c * deviates g (consumed g + i))%float.
Proof.
  intros Hi. unfold np.add, np.multiply.
  by rewrite !list_lookup_fmap, lookup_drawn.
Qed.

Section estimate_mean_distance.
Context `{NumPy} (self : instance) (w : World).

Lemma estimate_returns obs :
  d_obs self = Some obs →
  estimate_mean_distance self w =
    Returns
      (np.mean obs,
       ((readings (clock w) (S (reads (clock w)))
         - readings (clock w) (reads (clock w))) * 1e3)%float)
      self
      (mkWorld (global_rng w)
         (mkClock (readings (clock w)) (S (S (reads (clock w)))))).
Proof. intros Hobs. py_run. by rewrite Hobs. Qed.

Lemma estimate_raises :
  d_obs self = None →
  estimate_mean_distance self w =
    Raises (AttributeError "d_obs") self
      (mkWorld (global_rng w)
         (mkClock (readings (clock w)) (S (reads (clock w))))).
Proof. intros Hobs. py_run. by rewrite Hobs. Qed.
End estimate_mean_distance.

(** ** [generate] *)




(** A second call replaces the sample: after [cluster.generate(3, 0.5)], the
    call [cluster.generate(2, 0.5)] leaves two observations, made from the
    next two deviates, and the identifiers 0 and 1. *)
Example generate_again :
  final_self
    (generate (Some 2) (Some 0.5%float) (final_self sampled)
       (final_world sampled))
  = mkInstance (Some 3%float) (Some 2) (Some 0.5%float)
      (Some [1.125; 3.75]%float) (Some ["0"; "1"]).
Proof. reflexivity. Qed.




(** The premises of the zero-noise case hold in the sample world: there the
    two observations are 3.0 exactly. *)
Example zero_noise_sample :
  d_obs (final_self (generate (Some 2) (Some 0%float) cluster sample_world))
    = Some [3%float; 3%float].
Proof. reflexivity. Qed.

(** C4. Two Populations constructed with the same distance, each reseeded
    with the same seed and given the same [generate(N, r)] call, end up
    identical, observed distances included, bit for bit, wherever the
    generator and the clock stood before: with a seed and a sample size that
    numpy accepts both hold the same [N] observations, and otherwise both
    calls raise and both Populations are left without a sample. With such a
    seed and sample size the same holds of the observed distances of any two
    Populations of the same distance, whatever they held before. Without
    the reseeding the outcome is not determined by the arguments: the same
    call repeated on the same Population gives another sequence. *)
Theorem seeded_generate_reproducible `{numpy : NumPy} :
  (∀ (w1 w2 w1' w2' : World) (d : float) (s N : Z) (r : float),
     final_self
       ((np.random.seed s;; generate (Some N) (Some r))
          (final_self (new d w1)) w1')
     = final_self
         ((np.random.seed s;; generate (Some N) (Some r))
            (final_self (new d w2)) w2')) ∧
  (∀ (p1 p2 : instance) (w1 w2 : World) (d : float) (s N : Z) (r : float),
     distance p1 = Some d → distance p2 = Some d →
     0 ≤ s < 2 ^ 32 → 0 ≤ N ≤ np.max_length →
     ∃ obs,
       len obs = N ∧
       d_obs (final_self
                ((np.random.seed s;; generate (Some N) (Some r)) p1 w1))
         = Some obs ∧
       d_obs (final_self
                ((np.random.seed s;; generate (Some N) (Some r)) p2 w2))
         = Some obs) ∧
  (∃ (p : instance) (w : World) (N : Z) (r : float),
     d_obs (final_self (generate (Some N) (Some r) p w)) ≠
     d_obs (final_self
              (generate (Some N) (Some r) p
                 (final_world (generate (Some N) (Some r) p w))))).
Proof.
  split; [|split].
  - intros w1 w2 w1' w2' d s N r.
    unfold mbind, Py_bind, np.random.seed.
    destruct (decide (0 ≤ s < 2 ^ 32)); [|done].
    destruct (decide (N < 0)).
    { by rewrite !(generate_raises _ _ d) by done. }
    destruct (decide (np.max_length < N)).
    { by rewrite !(generate_refused _ _ d) by done. }
    by rewrite !(generate_returns _ _ d) by (done || lia).
  - intros p1 p2 w1 w2 d s N r Hd1 Hd2 Hs HN.
    eexists. split; [|split].
    2,3: unfold mbind, Py_bind, np.random.seed;
         destruct (decide (0 ≤ s < 2 ^ 32)); [|done];
         erewrite generate_returns by done; simpl; reflexivity.
    unfold len. rewrite length_observations. lia.
  - exists cluster, sample_world, 1, 0.1%float.
    intros E. apply (f_equal (fmap (fmap Prim2SF))) in E.
    vm_compute in E. discriminate E.
Qed.

Lemma seeded_generate_reproducible_witness :
  ∃ obs,
    len obs = 2 ∧
    d_obs (final_self
             ((np.random.seed 5;; generate (Some 2) (Some 0.1%float))
                cluster sample_world))
      = Some obs ∧
    d_obs (final_self
             ((np.random.seed 5;; generate (Some 2) (Some 0.1%float))
                (final_self
                   (generate (Some 4) (Some 0.5%float) cluster later_world))
                later_world))
      = Some obs.
Proof.
  apply (proj1 (proj2 (seeded_generate_reproducible
                         (numpy := single_pass_numpy)))
           _ _ _ _ 3%float);
    [reflexivity | reflexivity | lia | by vm_compute].
Defined.

(** C7, as the code has it. [generate] validates neither argument itself.
    It fails, with the [ValueError] of [np.random.randn], when the sample
    size is negative or above [2^60 - 1], the longest float64 array that
    numpy accepts; with a sample size within these bounds it raises nothing
    and returns, whatever the noise level, negative ones included. *)
Theorem generate_fails_when_randn_refuses
    (self : instance) (w : World) (d : float) (N : Z) (r : float) :
  distance self = Some d →
  (N < 0 ∨ np.max_length < N →
     raised (generate (Some N) (Some r) self w) = Some ValueError) ∧
  (0 ≤ N ≤ np.max_length →
     raised (generate (Some N) (Some r) self w) = None ∧
     returned (generate (Some N) (Some r) self w) = Some tt).
Proof.
  intros Hd. split; intros HN.
  - destruct HN; [by erewrite generate_raises|by erewrite generate_refused].
  - by erewrite generate_returns.
Qed.

Lemma generate_fails_when_randn_refuses_witness :
  (-1 < 0 ∨ np.max_length < -1 →
     raised (generate (Some (-1)) (Some (-0.1)%float) cluster sample_world)
       = Some ValueError) ∧
  (0 ≤ -1 ≤ np.max_length →
     raised (generate (Some (-1)) (Some (-0.1)%float) cluster sample_world)
       = None ∧
     returned (generate (Some (-1)) (Some (-0.1)%float) cluster sample_world)
       = Some tt).
Proof.
  apply (generate_fails_when_randn_refuses cluster sample_world 3).
  reflexivity.
Defined.

(** C7, as stated, fails: a negative noise level is accepted. The call
    [cluster.generate(2, -0.1)] returns, having stored two observations. *)
Lemma negative_rms_error_accepted :
  raised (generate (Some 2) (Some (-0.1)%float) cluster sample_world) = None ∧
  returned (generate (Some 2) (Some (-0.1)%float) cluster sample_world)
    = Some tt ∧
  rms_error
    (final_self (generate (Some 2) (Some (-0.1)%float) cluster sample_world))
    = Some (-0.1)%float ∧
  len <$> d_obs
    (final_self (generate (Some 2) (Some (-0.1)%float) cluster sample_world))
    = Some 2.
Proof. repeat split. Qed.

(** ** [__init__] *)

(** C8, as the code has it. Construction never fails: it stores the distance
    it is given, whatever its sign, and nothing else. *)
Theorem new_stores_any_distance (d : float) (w : World) :
  new d w = Returns tt (mkInstance (Some d) None None None None) w.
Proof. reflexivity. Qed.

(** C8, as stated, fails: [StellarPopulation(-1.0)] is an object whose
    distance is -1.0. *)
Lemma negative_distance_accepted :
  new (-1)%float sample_world =
    Returns tt (mkInstance (Some (-1)%float) None None None None)
      sample_world.
Proof. reflexivity. Qed.

(** ** Default arguments *)

(** C10. An argument left out of [generate] takes its default, 1000 for [N]
    and 0.1 for [rms_error]: [generate()] is [generate(1000, 0.1)], and on a
    constructed Population it leaves 1000 observations and identifiers. *)
Theorem generate_defaults (self : instance) (w : World) (d : float) :
  distance self = Some d →
  generate None None self w = generate (Some 1000) (Some 0.1%float) self w ∧
  (∀ n, generate (Some n) None self w
          = generate (Some n) (Some 0.1%float) self w) ∧
  (∀ r, generate None (Some r) self w
          = generate (Some 1000) (Some r) self w) ∧
  ∃ obs ids,
    d_obs (final_self (generate None None self w)) = Some obs ∧
    id (final_self (generate None None self w)) = Some ids ∧
    len obs = 1000 ∧ len ids = 1000.
Proof.
  intros Hd. split; [done|]. split; [done|]. split; [done|].
  rewrite generate_default_arguments.
  erewrite generate_returns by (done || apply max_length_1000).
  cbn [final_self d_obs StellarPopulation.id].
  eexists _, _. split; [done|]. split; [done|]. split.
  - unfold len. by rewrite length_observations.
  - unfold len. rewrite length_fmap. by apply length_range.
Qed.

Lemma generate_defaults_witness :
  generate None None cluster sample_world
    = generate (Some 1000) (Some 0.1%float) cluster sample_world ∧
  (∀ n, generate (Some n) None cluster sample_world
          = generate (Some n) (Some 0.1%float) cluster sample_world) ∧
  (∀ r, generate None (Some r) cluster sample_world
          = generate (Some 1000) (Some r) cluster sample_world) ∧
  ∃ obs ids,
    d_obs (final_self (generate None None cluster sample_world)) = Some obs ∧
    id (final_self (generate None None cluster sample_world)) = Some ids ∧
    len obs = 1000 ∧ len ids = 1000.
Proof. apply (generate_defaults cluster sample_world 3). reflexivity. Defined.

(** ** [estimate_mean_distance] *)

(** C2. On a Population holding a sample that is not empty,
    [estimate_mean_distance()] returns a pair. Its first component is a
    floating-point sum of all the observed distances, in whatever order the
    numpy at hand adds them up, divided by their number; its second component
    is the difference of the clock readings taken after and before the
    computation, in seconds, times 1000. *)
Theorem estimate_mean_distance_is_mean `{numpy : NumPy}
    (self : instance) (w : World) (obs : ndarray) :
  (∀ a, float_sum a (add_reduce a)) →
  d_obs self = Some obs →
  obs ≠ [] →
  ∃ (total start end_ : float) (w' : World),
    float_sum obs total ∧
    start = readings (clock w) (reads (clock w)) ∧
    end_ = readings (clock w) (S (reads (clock w))) ∧
    estimate_mean_distance self w =
      Returns ((total / float_of_int (len obs))%float,
               ((end_ - start) * 1e3)%float) self w'.
Proof.
  intros Hsum Hobs _. exists (add_reduce obs). eexists _, _, _.
  split; [apply Hsum|]. split; [done|]. split; [done|].
  by apply estimate_returns.
Qed.

Lemma estimate_mean_distance_is_mean_witness :
  ∃ (total start end_ : float) (w' : World),
    float_sum [3.75; 1.125; 3.75]%float total ∧
    start = readings (clock (final_world sampled))
              (reads (clock (final_world sampled))) ∧
    end_ = readings (clock (final_world sampled))
             (S (reads (clock (final_world sampled)))) ∧
    estimate_mean_distance (final_self sampled) (final_world sampled) =
      Returns ((total / float_of_int (len [3.75; 1.125; 3.75]%float))%float,
               ((end_ - start) * 1e3)%float)
        (final_self sampled) w'.
Proof.
  apply (estimate_mean_distance_is_mean (numpy := single_pass_numpy)
           (final_self sampled) (final_world sampled)
           [3.75; 1.125; 3.75]%float);
    [exact single_pass_is_sum | reflexivity | discriminate].
Defined.

(** With the single-pass summation, the mean of the sample 3.75, 1.125, 3.75
    is 8.625 / 3, and the two clock readings are a quarter of a millisecond
    apart. *)
Example mean_of_sampled :
  returned (estimate_mean_distance (final_self sampled) (final_world sampled))
  = Some ((8.625 / 3)%float,
          ((100 + 1 * 0.00025 - (100 + 0 * 0.00025)) * 1e3)%float).
Proof. reflexivity. Qed.




(** C6. On a Population that was constructed and never generated,
    [estimate_mean_distance()] returns nothing: reading the sample that is
    not there raises [AttributeError] for [d_obs], after the first clock
    reading and before any arithmetic; the Population is left as it was. *)
Theorem estimate_before_generate_raises `{numpy : NumPy}
    (d : float) (w : World) :
  estimate_mean_distance (final_self (new d w)) (final_world (new d w)) =
    Raises (AttributeError "d_obs") (final_self (new d w))
      (mkWorld (global_rng w)
         (mkClock (readings (clock w)) (S (reads (clock w))))).
Proof. by apply estimate_raises. Qed.

(** ** Frame conditions *)

(** C9. [generate] returns no value and, whether it returns or raises,
    leaves the stored distance and the clock as they were: it writes only
    [N], [rms_error], [d_obs] and [id], and advances only the random source.
    [estimate_mean_distance], whether it returns or raises, leaves every
    attribute of the Population and the random source as they were: it only
    reads the clock. *)
Theorem methods_frame `{numpy : NumPy} :
  (∀ (self : instance) (w : World) (N : option Z) (r : option float),
     distance (final_self (generate N r self w)) = distance self ∧
     clock (final_world (generate N r self w)) = clock w ∧
     deviates (global_rng (final_world (generate N r self w)))
       = deviates (global_rng w) ∧
     (raised (generate N r self w) = None →
      returned (generate N r self w) = Some tt)) ∧
  (∀ (self : instance) (w : World),
     final_self (estimate_mean_distance self w) = self ∧
     global_rng (final_world (estimate_mean_distance self w))
       = global_rng w ∧
     readings (clock (final_world (estimate_mean_distance self w)))
       = readings (clock w)).
Proof.
  split.
  - intros self w N r. rewrite generate_default_arguments.
    destruct (distance self) as [d|] eqn:Hd.
    + destruct (decide (default 1000 N < 0)).
      { by erewrite generate_raises. }
      destruct (decide (np.max_length < default 1000 N)).
      * by erewrite generate_refused.
      * by erewrite generate_returns by (done || lia).
    + by rewrite generate_unconstructed.
  - intros self w. destruct (d_obs self) as [obs|] eqn:Hobs.
    + by erewrite estimate_returns.
    + by rewrite estimate_raises.
Qed.

(** * Further properties of the class *)

(** ** Binary64 facts *)

(** A noise term scaled by a zero distance is a signed zero, and 0.0 plus a
    signed zero is 0.0. *)
Lemma zero_distance_exact r z :
  is_finite r = true → is_finite z = true →
  (0 + (r * 0) * z)%float = 0%float.
Proof.
  rewrite !is_finite_spec. intros Hr Hz.
  apply Prim2SF_inj. rewrite add_spec, !mul_spec.
  change (Prim2SF 0) with (S754_zero false).
  destruct (Prim2SF r) as [sr| | |sr mr er]; try done;
    destruct (Prim2SF z) as [sz| | |sz mz ez]; try done;
    by destruct sr, sz.
Qed.

(** The difference of a finite number with itself is 0.0, and so is 1000
    times it. *)
Lemma no_elapsed_time t :
  is_finite t = true → ((t - t) * 1e3)%float = 0%float.
Proof.
  rewrite is_finite_spec. intros Ht.
  apply Prim2SF_inj. rewrite mul_spec, sub_spec.
  destruct (Prim2SF t) as [s| | |s m e]; try done.
  - by destruct s.
  - unfold SF64sub, SFsub. rewrite Z.sub_diag. reflexivity.
Qed.

(** ** [generate], called again *)

Lemma generate_returns_sample (self : instance) (w : World) d N r :
  distance self = Some d →
  0 ≤ N ≤ np.max_length →
  generate (Some N) (Some r) self w =
    Returns tt (sample_of (global_rng w) d N r) (advance (Z.to_nat N) w).
Proof. intros Hd HN. by erewrite generate_returns. Qed.

Lemma advance_advance a b w : advance a (advance b w) = advance (b + a) w.
Proof. unfold advance. simpl. by rewrite Nat.add_assoc. Qed.

(** X1. A call with a negative sample size is not atomic. It raises
    [ValueError] only after [N] and [rms_error] have been overwritten, and it
    leaves the observed distances and the identifiers of the earlier sample
    in place: from then on the stored [N] is not the length of the stored
    sample. No deviate is consumed. *)
Theorem generate_failure_keeps_stale_sample
    (self : instance) (w : World) (d : float) (N : Z) (r : float) :
  distance self = Some d →
  N < 0 →
  raised (generate (Some N) (Some r) self w) = Some ValueError ∧
  StellarPopulation.N (final_self (generate (Some N) (Some r) self w))
    = Some N ∧
  rms_error (final_self (generate (Some N) (Some r) self w)) = Some r ∧
  d_obs (final_self (generate (Some N) (Some r) self w)) = d_obs self ∧
  id (final_self (generate (Some N) (Some r) self w)) = id self ∧
  final_world (generate (Some N) (Some r) self w) = w ∧
  (∀ obs, d_obs self = Some obs →
     len <$> d_obs (final_self (generate (Some N) (Some r) self w))
       ≠ StellarPopulation.N
           (final_self (generate (Some N) (Some r) self w))).
Proof.
  intros Hd HN. erewrite generate_raises by done. simpl.
  repeat split. intros obs ->. simpl. unfold len. intros [=]. lia.
Qed.

Lemma generate_failure_keeps_stale_sample_witness :
  raised (generate (Some (-1)) (Some 0.2%float) (final_self sampled)
            (final_world sampled)) = Some ValueError ∧
  StellarPopulation.N
    (final_self (generate (Some (-1)) (Some 0.2%float) (final_self sampled)
                   (final_world sampled)))
    = Some (-1) ∧
  rms_error
    (final_self (generate (Some (-1)) (Some 0.2%float) (final_self sampled)
                   (final_world sampled)))
    = Some 0.2%float ∧
  d_obs
    (final_self (generate (Some (-1)) (Some 0.2%float) (final_self sampled)
                   (final_world sampled)))
    = d_obs (final_self sampled) ∧
  id
    (final_self (generate (Some (-1)) (Some 0.2%float) (final_self sampled)
                   (final_world sampled)))
    = id (final_self sampled) ∧
  final_world
    (generate (Some (-1)) (Some 0.2%float) (final_self sampled)
       (final_world sampled))
    = final_world sampled ∧
  (∀ obs, d_obs (final_self sampled) = Some obs →
     len <$> d_obs
       (final_self (generate (Some (-1)) (Some 0.2%float)
                      (final_self sampled) (final_world sampled)))
       ≠ StellarPopulation.N
           (final_self (generate (Some (-1)) (Some 0.2%float)
                          (final_self sampled) (final_world sampled)))).
Proof.
  apply (generate_failure_keeps_stale_sample (final_self sampled)
           (final_world sampled) 3 (-1) 0.2); [reflexivity | lia].
Defined.

(** X2. A second successful call replaces the first sample entirely: with
    both sample sizes between 0 and [2^60 - 1], the longest float64 array
    that numpy accepts, what the second call leaves is what the same call
    would have left on the Population as it was before the first call, in a
    world whose random source has handed out [N1] deviates more. In
    particular observation [i] of the second sample is made from deviate
    number [N1 + i] counted from the start. *)
Theorem generate_twice
    (self : instance) (w : World) (d : float) (N1 N2 : Z) (r1 r2 : float) :
  distance self = Some d →
  0 ≤ N1 ≤ np.max_length →
  0 ≤ N2 ≤ np.max_length →
  generate (Some N2) (Some r2)
    (final_self (generate (Some N1) (Some r1) self w))
    (final_world (generate (Some N1) (Some r1) self w))
  = generate (Some N2) (Some r2) self (advance (Z.to_nat N1) w) ∧
  ∃ obs,
    d_obs (final_self
             (generate (Some N2) (Some r2)
                (final_self (generate (Some N1) (Some r1) self w))
                (final_world (generate (Some N1) (Some r1) self w))))
      = Some obs ∧
    len obs = N2 ∧
    ∀ i : nat, Z.of_nat i < N2 →
      obs !! i =
        Some (d + (r2 * d)
                  * deviates (global_rng w)
                      (consumed (global_rng w) + Z.to_nat N1 + i))%float.
Proof.
  intros Hd HN1 HN2.
  rewrite (generate_returns_sample self w d N1 r1) by done. simpl.
  rewrite (generate_returns_sample _ _ d N2 r2) by done.
  rewrite (generate_returns_sample self _ d N2 r2) by done.
  split; [done|]. simpl. eexists. split; [done|]. split.
  - unfold len. rewrite length_observations. lia.
  - intros i Hi. rewrite lookup_observations by lia. done.
Qed.

Lemma generate_twice_witness :
  generate (Some 2) (Some 0.5%float)
    (final_self (generate (Some 3) (Some 0.1%float) cluster sample_world))
    (final_world (generate (Some 3) (Some 0.1%float) cluster sample_world))
  = generate (Some 2) (Some 0.5%float) cluster
      (advance (Z.to_nat 3) sample_world) ∧
  ∃ obs,
    d_obs (final_self
             (generate (Some 2) (Some 0.5%float)
                (final_self
                   (generate (Some 3) (Some 0.1%float) cluster sample_world))
                (final_world
                   (generate (Some 3) (Some 0.1%float) cluster sample_world))))
      = Some obs ∧
    len obs = 2 ∧
    ∀ i : nat, Z.of_nat i < 2 →
      obs !! i =
        Some (3 + (0.5 * 3)
                  * deviates (global_rng sample_world)
                      (consumed (global_rng sample_world) + Z.to_nat 3 + i)
             )%float.
Proof.
  apply (generate_twice cluster sample_world 3 3 2 0.1 0.5);
    [reflexivity | by vm_compute | by vm_compute].
Defined.

(** X3. A Population at distance 0.0, such as the first of the ten clusters
    that the notebook makes with [float(k)] for [k = 0], has no scatter:
    for a sample size between 0 and [2^60 - 1], the longest float64 array
    that numpy accepts, and whatever the finite noise level and the finite
    deviates, every one of its observations is 0.0. *)
Theorem generate_at_zero_distance
    (self : instance) (w : World) (N : Z) (r : float) :
  distance self = Some 0%float →
  0 ≤ N ≤ np.max_length →
  is_finite r = true →
  (∀ i : nat, Z.of_nat i < N →
     is_finite (deviates (global_rng w) (consumed (global_rng w) + i))
       = true) →
  d_obs (final_self (generate (Some N) (Some r) self w))
    = Some (replicate (Z.to_nat N) 0%float).
Proof.
  intros Hd HN Hr Hdev.
  rewrite (generate_returns_sample self w 0 N r) by done. simpl. f_equal.
  apply list_eq. intros i.
  destruct (decide (i < Z.to_nat N)%nat) as [Hi|Hi].
  - rewrite lookup_observations by done.
    rewrite lookup_replicate_2 by done. f_equal.
    apply zero_distance_exact; [done|]. apply Hdev. lia.
  - rewrite !lookup_ge_None_2; [done|..].
    + rewrite length_replicate. lia.
    + rewrite length_observations. lia.
Qed.

Lemma generate_at_zero_distance_witness :
  d_obs (final_self
           (generate (Some 4) (Some 0.1%float)
              (final_self (new 0 sample_world)) sample_world))
    = Some (replicate (Z.to_nat 4) 0%float).
Proof.
  apply (generate_at_zero_distance (final_self (new 0 sample_world))
           sample_world 4 0.1);
    [reflexivity | by vm_compute | reflexivity |].
  intros i _. simpl. by destruct (Nat.even i).
Defined.

(** ** [estimate_mean_distance] on a clock that stands still *)

(** X4. When the clock gives the same finite reading before and after the
    mean is taken, which is what a coarse clock does for a short sample, the
    reported time is 0.0 milliseconds. *)
Theorem estimate_time_zero_on_equal_readings `{numpy : NumPy}
    (self : instance) (w : World) (obs : ndarray) :
  d_obs self = Some obs →
  readings (clock w) (S (reads (clock w)))
    = readings (clock w) (reads (clock w)) →
  is_finite (readings (clock w) (reads (clock w))) = true →
  returned (estimate_mean_distance self w) = Some (np.mean obs, 0%float).
Proof.
  intros Hobs Heq Hfin. erewrite estimate_returns by done. simpl.
  rewrite Heq. by rewrite no_elapsed_time.
Qed.

Lemma estimate_time_zero_on_equal_readings_witness :
  returned
    (estimate_mean_distance (H := single_pass_numpy) (final_self sampled)
       (mkWorld (global_rng sample_world) (mkClock (λ _, 100%float) 0)))
  = Some (np.mean (H := single_pass_numpy) [3.75; 1.125; 3.75]%float,
          0%float).
Proof.
  apply (estimate_time_zero_on_equal_readings (numpy := single_pass_numpy)
           (final_self sampled)
           (mkWorld (global_rng sample_world) (mkClock (λ _, 100%float) 0))
           [3.75; 1.125; 3.75]%float);
    reflexivity.
Defined.

(** * Properties of the notebook's cells *)

Import SimpleMean.

(** ** Lists and indices *)

Lemma index_in_range {A} (l : list A) (k : nat) :
  (k < length l)%nat → index l (Z.of_nat k) = Some k.
Proof.
  intros Hk. unfold index, len.
  destruct (decide (Z.of_nat k < 0)); [lia|].
  destruct (decide (0 ≤ Z.of_nat k < Z.of_nat (length l))); [|lia].
  by rewrite Nat2Z.id.
Qed.

Lemma index_past_end {A} (l : list A) (k : nat) :
  (length l ≤ k)%nat → index l (Z.of_nat k) = None.
Proof.
  intros Hk. unfold index, len.
  destruct (decide (Z.of_nat k < 0)); [lia|].
  destruct (decide (0 ≤ Z.of_nat k < Z.of_nat (length l))); [lia|done].
Qed.

Lemma length_concat_uniform {A} (ls : list (list A)) (n : nat) :
  Forall (λ l, length l = n) ls → length (concat ls) = (length ls * n)%nat.
Proof.
  induction 1 as [|l ls Hl _ IH]; simpl; [done|].
  rewrite length_app, IH, Hl. lia.
Qed.

Lemma range_seq (n : nat) : range (Z.of_nat n) = Z.of_nat <$> seq 0 n.
Proof.
  unfold range, seqZ. rewrite Nat2Z.id. apply list_fmap_ext.
  intros i x _. lia.
Qed.

Lemma advance_0 w : advance 0 w = w.
Proof.
  destruct w as [[dev used] clk]. unfold advance. simpl.
  by rewrite Nat.add_0_r.
Qed.

(** ** A method called on an element of [clusters] *)

Lemma on_cluster_found {A} (k : nat) (method : Py instance A) nb w obj :
  clusters nb !! k = Some obj →
  on_cluster (Z.of_nat k) method nb w =
    match method obj w with
    | Returns a obj' w' =>
        Completes a
          (mkNotebook (N_stars_per_cluster nb) (<[k:=obj']> (clusters nb))
             (session nb) (j nb)) w'
    | Raises e obj' w' =>
        Stops (Propagated e)
          (mkNotebook (N_stars_per_cluster nb) (<[k:=obj']> (clusters nb))
             (session nb) (j nb)) w'
    end.
Proof.
  intros Hobj. unfold on_cluster.
  rewrite index_in_range by (by eapply lookup_lt_Some).
  simpl. by rewrite Hobj.
Qed.

Lemma on_cluster_missing {A} (k : nat) (method : Py instance A) nb w :
  (length (clusters nb) ≤ k)%nat →
  on_cluster (Z.of_nat k) method nb w = Stops IndexError nb w.
Proof. intros Hk. unfold on_cluster. by rewrite index_past_end. Qed.

(** ** The loop that makes the clusters *)

Lemma add_cluster_appends (k : nat) nb w :
  length (clusters nb) = k →
  0 ≤ N_stars_per_cluster nb ≤ np.max_length →
  add_cluster (Z.of_nat k) nb w =
    Completes tt
      (mkNotebook (N_stars_per_cluster nb)
         (clusters nb
            ++ [sample_of (global_rng w) (float_of_int (Z.of_nat k))
                  (N_stars_per_cluster nb) 0.1])
         (session nb
            ++ [Population (Z.of_nat k) (float_of_int (Z.of_nat k))])
         (j nb))
      (advance (Z.to_nat (N_stars_per_cluster nb)) w).
Proof.
  intros Hlen HN.
  unfold add_cluster, mbind, Cell_bind, construct, clusters_append,
    set_clusters, global, session_add. simpl.
  erewrite (on_cluster_found k); last first.
  { simpl. rewrite lookup_app_r by lia. by rewrite Hlen, Nat.sub_diag. }
  rewrite generate_default_arguments. simpl.
  erewrite generate_returns_sample by done. simpl.
  rewrite insert_app_r_alt by lia. by rewrite Hlen, Nat.sub_diag.
Qed.

Lemma make_clusters_loop (w : World) (n : Z) (turns : nat) :
  0 ≤ n ≤ np.max_length →
  ∀ (k0 : nat) nb,
    length (clusters nb) = k0 →
    N_stars_per_cluster nb = n →
    for_ (Z.of_nat <$> seq k0 turns) add_cluster nb
      (advance (k0 * Z.to_nat n) w) =
    Completes tt
      (mkNotebook n
         (clusters nb ++ (cluster_at w n <$> seq k0 turns))
         (session nb ++ (population_at <$> seq k0 turns))
         (j nb))
      (advance ((k0 + turns) * Z.to_nat n) w).
Proof.
  intros Hn. induction turns as [|turns IH]; intros k0 nb Hlen HN.
  - simpl. rewrite !app_nil_r, Nat.add_0_r. destruct nb; simpl in *.
    by subst.
  - simpl. unfold mbind at 1, Cell_bind at 1.
    rewrite add_cluster_appends by (done || lia).
    rewrite advance_advance, HN.
    replace (k0 * Z.to_nat n + Z.to_nat n)%nat
      with (S k0 * Z.to_nat n)%nat by lia.
    rewrite IH; simpl; [|rewrite length_app; simpl; lia|done].
    rewrite <-!app_assoc. simpl.
    by replace (k0 + S turns)%nat with (S k0 + turns)%nat by lia.
Qed.

Lemma make_clusters_closed nb w :
  0 ≤ N_stars_per_cluster nb ≤ np.max_length →
  make_clusters nb w =
    Completes tt
      (mkNotebook (N_stars_per_cluster nb)
         (cluster_at w (N_stars_per_cluster nb) <$> seq 0 10)
         (session nb ++ (population_at <$> seq 0 10))
         (j nb))
      (advance (10 * Z.to_nat (N_stars_per_cluster nb)) w).
Proof.
  intros Hn. unfold make_clusters, mbind, Cell_bind, set_clusters.
  rewrite <-(advance_0 w) at 1.
  change (range 10) with (range (Z.of_nat 10)). rewrite (range_seq 10).
  by rewrite (make_clusters_loop w (N_stars_per_cluster nb) 10 Hn 0).
Qed.

Lemma make_clusters_stops nb w :
  N_stars_per_cluster nb < 0 →
  make_clusters nb w =
    Stops (Propagated ValueError)
      (mkNotebook (N_stars_per_cluster nb)
         [mkInstance (Some 0%float) (Some (N_stars_per_cluster nb))
            (Some 0.1%float) None None]
         (session nb) (j nb))
      w.
Proof.
  intros Hn. unfold make_clusters, mbind, Cell_bind, set_clusters.
  change (range 10) with (range (Z.of_nat 10)). rewrite (range_seq 10). simpl.
  unfold mbind, Cell_bind, add_cluster, mbind, Cell_bind, construct,
    clusters_append, set_clusters, global. simpl.
  rewrite (on_cluster_found 0 _ _ _ (final_self (new 0 w))) by done.
  rewrite generate_default_arguments. simpl.
  by erewrite generate_raises by done.
Qed.

(** ** The loops that add the stars *)

Lemma for_app {A} (xs ys : list A) (body : A → Cell unit) nb w :
  for_ (xs ++ ys) body nb w = (for_ xs body;; for_ ys body) nb w.
Proof.
  revert nb w. induction xs as [|x xs IH]; intros nb w; simpl.
  - done.
  - unfold mbind, Cell_bind. destruct (body x nb w); [apply IH|done].
Qed.

Lemma add_star_loop (k : Z) (obs : ndarray) :
  ∀ nb w,
    for_ obs (add_star k) nb w =
      Completes tt
        (mkNotebook (N_stars_per_cluster nb) (clusters nb)
           (session nb ++ stars_of (j nb) k obs) (j nb + len obs))
        w.
Proof.
  unfold stars_of, len.
  induction obs as [|d obs IH]; intros nb w; simpl.
  - rewrite app_nil_r, Z.add_0_r. by destruct nb.
  - unfold mbind at 1, Cell_bind at 1, add_star at 1. simpl.
    rewrite IH. simpl. rewrite <-app_assoc. simpl.
    change (Z.of_nat 0) with 0. rewrite Z.add_0_r.
    replace (j nb + Z.of_nat (S (length obs)))
      with (j nb + 1 + Z.of_nat (length obs)) by lia.
    do 4 f_equal. apply imap_ext. intros i x _. simpl. f_equal. lia.
Qed.

Lemma add_stars_of_found (k : nat) nb w c obs :
  clusters nb !! k = Some c →
  d_obs c = Some obs →
  add_stars_of (Z.of_nat k) nb w =
    Completes tt
      (mkNotebook (N_stars_per_cluster nb) (clusters nb)
         (session nb ++ stars_of (j nb) (Z.of_nat k) obs) (j nb + len obs))
      w.
Proof.
  intros Hc Hobs. unfold add_stars_of, mbind, Cell_bind.
  rewrite (on_cluster_found k _ nb w c) by done.
  unfold getattr. rewrite Hobs.
  rewrite list_insert_id by done. by rewrite add_star_loop.
Qed.

Lemma add_stars_loop (samples : list ndarray) :
  ∀ (k0 : nat) nb w,
    (∀ i obs, samples !! i = Some obs →
       ∃ c, clusters nb !! (k0 + i)%nat = Some c ∧ d_obs c = Some obs) →
    for_ (Z.of_nat <$> seq k0 (length samples)) add_stars_of nb w =
      Completes tt
        (mkNotebook (N_stars_per_cluster nb) (clusters nb)
           (session nb ++ stars_from (j nb) k0 samples)
           (j nb + len (concat samples)))
        w.
Proof.
  induction samples as [|obs samples IH]; intros k0 nb w Hs; simpl.
  - rewrite app_nil_r. unfold len. simpl. rewrite Z.add_0_r. by destruct nb.
  - destruct (Hs 0%nat obs eq_refl) as (c & Hc & Hobs).
    rewrite Nat.add_0_r in Hc.
    unfold mbind at 1, Cell_bind at 1.
    rewrite (add_stars_of_found k0 nb w c obs) by done.
    rewrite IH; simpl.
    + rewrite <-app_assoc. do 2 f_equal.
      unfold len. rewrite length_app. lia.
    + intros i obs' Hi. destruct (Hs (S i) obs' Hi) as (c' & Hc' & Hobs').
      exists c'. split; [|done].
      by replace (S (k0 + i)) with (k0 + S i)%nat by lia.
Qed.

Lemma add_stars_closed nb w (samples : list ndarray) :
  length samples = 10%nat →
  (∀ k obs, samples !! k = Some obs →
     ∃ c, clusters nb !! k = Some c ∧ d_obs c = Some obs) →
  add_stars nb w =
    Completes tt
      (mkNotebook (N_stars_per_cluster nb) (clusters nb)
         (session nb ++ stars_from 0 0 samples) (len (concat samples)))
      w.
Proof.
  intros Hlen Hs. unfold add_stars, mbind, Cell_bind, set_j.
  change (range 10) with (range (Z.of_nat 10)).
  rewrite (range_seq 10), <-Hlen.
  by rewrite (add_stars_loop samples 0).
Qed.

Lemma add_stars_stops_closed nb w (samples : list ndarray) :
  (length samples < 10)%nat →
  length (clusters nb) = length samples →
  (∀ k obs, samples !! k = Some obs →
     ∃ c, clusters nb !! k = Some c ∧ d_obs c = Some obs) →
  add_stars nb w =
    Stops IndexError
      (mkNotebook (N_stars_per_cluster nb) (clusters nb)
         (session nb ++ stars_from 0 0 samples) (len (concat samples)))
      w.
Proof.
  intros Hlt Hlen Hs. unfold add_stars. unfold mbind at 1, Cell_bind at 1.
  unfold set_j.
  change (range 10) with (range (Z.of_nat 10)). rewrite (range_seq 10).
  replace 10%nat with (length samples + S (9 - length samples))%nat by lia.
  rewrite seq_app, fmap_app, for_app.
  unfold mbind at 1, Cell_bind at 1.
  rewrite (add_stars_loop samples 0) by done. simpl.
  unfold mbind at 1, Cell_bind at 1, add_stars_of at 1.
  unfold mbind at 1, Cell_bind at 1.
  by rewrite on_cluster_missing by (simpl; lia).
Qed.

(** ** The rows of the stars *)

Lemma length_stars_of start k obs : length (stars_of start k obs) = length obs.
Proof. unfold stars_of. by rewrite length_imap. Qed.

Lemma length_stars_from samples :
  ∀ start k, length (stars_from start k samples) = length (concat samples).
Proof.
  induction samples as [|obs samples IH]; intros start k; simpl; [done|].
  by rewrite !length_app, length_stars_of, IH.
Qed.

Lemma lookup_stars_of start k obs (p : nat) d :
  obs !! p = Some d →
  stars_of start k obs !! p = Some (Star (start + Z.of_nat p) k d).
Proof. intros Hp. unfold stars_of. by rewrite list_lookup_imap, Hp. Qed.

Lemma lookup_stars_from samples :
  ∀ start k0 (k p : nat) obs d,
    samples !! k = Some obs →
    obs !! p = Some d →
    stars_from start k0 samples !! (length (concat (take k samples)) + p)%nat
    = Some (Star (start + Z.of_nat (length (concat (take k samples)) + p))
              (Z.of_nat (k0 + k)) d).
Proof.
  induction samples as [|obs0 samples IH]; intros start k0 k p obs d Hk Hp.
  - done.
  - destruct k as [|k]; simpl in *.
    + injection Hk as ->.
      rewrite lookup_app_l
        by (rewrite length_stars_of; by eapply lookup_lt_Some).
      rewrite Nat.add_0_r. by apply lookup_stars_of.
    + rewrite length_app, <-Nat.add_assoc.
      rewrite lookup_app_r by (rewrite length_stars_of; lia).
      rewrite length_stars_of.
      replace (length obs0 + (length (concat (take k samples)) + p)
               - length obs0)%nat
        with (length (concat (take k samples)) + p)%nat by lia.
      rewrite (IH _ (S k0) k p obs d) by done.
      unfold len. do 2 f_equal; lia.
Qed.

Lemma mapped_id_stars_from samples :
  ∀ start k,
    mapped_id <$> stars_from start k samples =
    (λ i : nat, start + Z.of_nat i) <$> seq 0 (length (concat samples)).
Proof.
  induction samples as [|obs samples IH]; intros start k; simpl; [done|].
  rewrite fmap_app, IH, length_app, seq_app, fmap_app. f_equal.
  - unfold stars_of. rewrite fmap_imap.
    rewrite <-(imap_seq_0 obs (λ i, start + Z.of_nat i)).
    by apply imap_ext.
  - apply list_eq. intros i. rewrite !list_lookup_fmap.
    destruct (decide (i < length (concat samples))%nat).
    + rewrite !lookup_seq_lt by done. simpl. f_equal. unfold len. lia.
    + by rewrite !lookup_seq_ge by lia.
Qed.

(** ** The concrete notebook *)

Example made_is_made :
  notebook_after (make_clusters small_notebook sample_world) = made.
Proof. vm_compute. reflexivity. Qed.

Lemma made_samples_are_samples :
  ∀ k obs, made_samples !! k = Some obs →
    ∃ c, clusters made !! k = Some c ∧ d_obs c = Some obs.
Proof.
  intros k obs.
  do 10 (destruct k as [|k];
         [intros [= <-]; eexists; split; reflexivity|]).
  done.
Qed.

Lemma short_notebook_samples :
  ∀ k obs, [[3.75; 1.125; 3.75]%float] !! k = Some obs →
    ∃ c, clusters short_notebook !! k = Some c ∧ d_obs c = Some obs.
Proof.
  intros [|k] obs; [|done]. intros [= <-]. eexists. split; reflexivity.
Qed.

(** ** The cell that makes the clusters *)

(** X5. With a number of stars per cluster between 0 and [2^60 - 1], the
    longest float64 array that numpy accepts, the cell completes, whatever
    [clusters] held before. It leaves ten clusters;
    cluster [k] is at distance [float(k)], has the default noise level 0.1
    and holds [N_stars_per_cluster] observations, observation [i] being
    made from deviate number [k * N_stars_per_cluster + i] of the random
    source; ten populations, with ids 0 to 9 and these distances, are
    staged in the session; the random source has moved on by ten samples. *)
Theorem make_clusters_builds_ten (nb : Notebook) (w : World) :
  0 ≤ N_stars_per_cluster nb ≤ np.max_length →
  ∃ nb' : Notebook,
    make_clusters nb w =
      Completes tt nb'
        (advance (10 * Z.to_nat (N_stars_per_cluster nb)) w) ∧
    N_stars_per_cluster nb' = N_stars_per_cluster nb ∧
    j nb' = j nb ∧
    length (clusters nb') = 10%nat ∧
    session nb' =
      session nb ++ ((λ k, Population k (float_of_int k)) <$> range 10) ∧
    ∀ k : nat, (k < 10)%nat →
      ∃ (c : instance) (obs : ndarray),
        clusters nb' !! k = Some c ∧
        distance c = Some (float_of_int (Z.of_nat k)) ∧
        StellarPopulation.N c = Some (N_stars_per_cluster nb) ∧
        rms_error c = Some 0.1%float ∧
        id c = Some (str <$> range (N_stars_per_cluster nb)) ∧
        d_obs c = Some obs ∧
        len obs = N_stars_per_cluster nb ∧
        ∀ i : nat, Z.of_nat i < N_stars_per_cluster nb →
          obs !! i =
            Some (float_of_int (Z.of_nat k)
                  + (0.1 * float_of_int (Z.of_nat k))
                    * deviates (global_rng w)
                        (consumed (global_rng w)
                         + k * Z.to_nat (N_stars_per_cluster nb) + i))%float.
Proof.
  intros Hn. eexists. split; [by apply make_clusters_closed|].
  cbn [N_stars_per_cluster j clusters session].
  split; [done|]. split; [done|]. split; [done|]. split; [done|].
  intros k Hk. eexists _, _.
  split.
  { rewrite list_lookup_fmap, lookup_seq_lt by done. reflexivity. }
  unfold cluster_at, sample_of.
  cbn [distance StellarPopulation.N rms_error d_obs StellarPopulation.id].
  do 5 (split; [done|]). split.
  - unfold len. rewrite length_observations. lia.
  - intros i Hi. rewrite lookup_observations by lia. done.
Qed.

Lemma make_clusters_builds_ten_witness :
  ∃ nb' : Notebook,
    make_clusters small_notebook sample_world =
      Completes tt nb'
        (advance (10 * Z.to_nat (N_stars_per_cluster small_notebook))
           sample_world) ∧
    N_stars_per_cluster nb' = N_stars_per_cluster small_notebook ∧
    j nb' = j small_notebook ∧
    length (clusters nb') = 10%nat ∧
    session nb' =
      session small_notebook
        ++ ((λ k, Population k (float_of_int k)) <$> range 10) ∧
    ∀ k : nat, (k < 10)%nat →
      ∃ (c : instance) (obs : ndarray),
        clusters nb' !! k = Some c ∧
        distance c = Some (float_of_int (Z.of_nat k)) ∧
        StellarPopulation.N c = Some (N_stars_per_cluster small_notebook) ∧
        rms_error c = Some 0.1%float ∧
        id c = Some (str <$> range (N_stars_per_cluster small_notebook)) ∧
        d_obs c = Some obs ∧
        len obs = N_stars_per_cluster small_notebook ∧
        ∀ i : nat, Z.of_nat i < N_stars_per_cluster small_notebook →
          obs !! i =
            Some (float_of_int (Z.of_nat k)
                  + (0.1 * float_of_int (Z.of_nat k))
                    * deviates (global_rng sample_world)
                        (consumed (global_rng sample_world)
                         + k * Z.to_nat (N_stars_per_cluster small_notebook)
                         + i))%float.
Proof.
  apply (make_clusters_builds_ten small_notebook sample_world).
  by vm_compute.
Defined.

(** X6. With a negative number of stars per cluster the cell stops in its
    first turn with the [ValueError] of [generate]: [clusters] holds the one
    Population at distance 0.0, with the negative [N] stored and no sample,
    and nothing was staged in the session or taken from the random source. *)
Theorem make_clusters_negative_size (nb : Notebook) (w : World) :
  N_stars_per_cluster nb < 0 →
  stopped (make_clusters nb w) = Some (Propagated ValueError) ∧
  clusters (notebook_after (make_clusters nb w)) =
    [mkInstance (Some 0%float) (Some (N_stars_per_cluster nb))
       (Some 0.1%float) None None] ∧
  session (notebook_after (make_clusters nb w)) = session nb ∧
  world_after (make_clusters nb w) = w.
Proof. intros Hn. by rewrite make_clusters_stops. Qed.

Lemma make_clusters_negative_size_witness :
  stopped (make_clusters (mkNotebook (-1) [cluster] [] 0) sample_world)
    = Some (Propagated ValueError) ∧
  clusters
    (notebook_after
       (make_clusters (mkNotebook (-1) [cluster] [] 0) sample_world)) =
    [mkInstance (Some 0%float)
       (Some (N_stars_per_cluster (mkNotebook (-1) [cluster] [] 0)))
       (Some 0.1%float) None None] ∧
  session
    (notebook_after
       (make_clusters (mkNotebook (-1) [cluster] [] 0) sample_world))
    = session (mkNotebook (-1) [cluster] [] 0) ∧
  world_after (make_clusters (mkNotebook (-1) [cluster] [] 0) sample_world)
    = sample_world.
Proof.
  apply (make_clusters_negative_size (mkNotebook (-1) [cluster] [] 0)
           sample_world).
  simpl. lia.
Defined.

(** ** The cell that adds the stars *)

(** X7. When the first ten clusters hold samples, the cell completes, leaves
    the clusters and the world as they were, and has staged one star for
    every observation, cluster after cluster and in the order of each
    sample: observation [p] of cluster [k] is the star whose place, and
    whose id, is the number of observations of the clusters before [k]
    plus [p]; its [population_id] is [k] and its distance the observed
    one. *)
Theorem add_stars_stages_every_observation
    (nb : Notebook) (w : World) (samples : list ndarray) :
  length samples = 10%nat →
  (∀ k obs, samples !! k = Some obs →
     ∃ c, clusters nb !! k = Some c ∧ d_obs c = Some obs) →
  ∃ added : list mapped,
    add_stars nb w =
      Completes tt
        (mkNotebook (N_stars_per_cluster nb) (clusters nb)
           (session nb ++ added) (len added))
        w ∧
    length added = length (concat samples) ∧
    ∀ (k p : nat) obs d,
      samples !! k = Some obs →
      obs !! p = Some d →
      added !! (length (concat (take k samples)) + p)%nat =
        Some (Star (Z.of_nat (length (concat (take k samples)) + p))
                (Z.of_nat k) d).
Proof.
  intros Hlen Hs. exists (stars_from 0 0 samples).
  split; [|split].
  - rewrite (add_stars_closed nb w samples) by done.
    unfold len. by rewrite length_stars_from.
  - apply length_stars_from.
  - intros k p obs d Hk Hp.
    by rewrite (lookup_stars_from samples 0 0 k p obs d).
Qed.

Lemma add_stars_stages_every_observation_witness :
  ∃ added : list mapped,
    add_stars made sample_world =
      Completes tt
        (mkNotebook (N_stars_per_cluster made) (clusters made)
           (session made ++ added) (len added))
        sample_world ∧
    length added = length (concat made_samples) ∧
    ∀ (k p : nat) obs d,
      made_samples !! k = Some obs →
      obs !! p = Some d →
      added !! (length (concat (take k made_samples)) + p)%nat =
        Some (Star (Z.of_nat (length (concat (take k made_samples)) + p))
                (Z.of_nat k) d).
Proof.
  apply (add_stars_stages_every_observation made sample_world made_samples);
    [reflexivity | exact made_samples_are_samples].
Defined.

(** X8. The ids of the stars that the cell stages are 0, 1, 2, ... in the
    order of staging, hence pairwise distinct, and the counter [j] ends at
    their number. *)
Theorem add_stars_ids_count_from_zero
    (nb : Notebook) (w : World) (samples : list ndarray) :
  length samples = 10%nat →
  (∀ k obs, samples !! k = Some obs →
     ∃ c, clusters nb !! k = Some c ∧ d_obs c = Some obs) →
  ∃ added : list mapped,
    session (notebook_after (add_stars nb w)) = session nb ++ added ∧
    mapped_id <$> added = range (len added) ∧
    NoDup (mapped_id <$> added) ∧
    j (notebook_after (add_stars nb w)) = len added.
Proof.
  intros Hlen Hs. exists (stars_from 0 0 samples).
  rewrite (add_stars_closed nb w samples) by done. simpl.
  assert (mapped_id <$> stars_from 0 0 samples
          = range (len (stars_from 0 0 samples))) as Hids.
  { unfold len. rewrite range_seq, mapped_id_stars_from, length_stars_from.
    done. }
  split; [done|]. split; [done|]. split.
  - rewrite Hids. apply NoDup_seqZ.
  - unfold len. by rewrite length_stars_from.
Qed.

Lemma add_stars_ids_count_from_zero_witness :
  ∃ added : list mapped,
    session (notebook_after (add_stars made sample_world))
      = session made ++ added ∧
    mapped_id <$> added = range (len added) ∧
    NoDup (mapped_id <$> added) ∧
    j (notebook_after (add_stars made sample_world)) = len added.
Proof.
  apply (add_stars_ids_count_from_zero made sample_world made_samples);
    [reflexivity | exact made_samples_are_samples].
Defined.

(** X9. With fewer than ten clusters, all of them holding samples, the cell
    stops with [IndexError] at the first missing cluster; by then the stars
    of the clusters that exist are staged, with ids counting from 0, and
    [j] is their number. The stop undoes nothing. *)
Theorem add_stars_too_few_clusters
    (nb : Notebook) (w : World) (samples : list ndarray) :
  (length samples < 10)%nat →
  length (clusters nb) = length samples →
  (∀ k obs, samples !! k = Some obs →
     ∃ c, clusters nb !! k = Some c ∧ d_obs c = Some obs) →
  ∃ added : list mapped,
    add_stars nb w =
      Stops IndexError
        (mkNotebook (N_stars_per_cluster nb) (clusters nb)
           (session nb ++ added) (len added))
        w ∧
    length added = length (concat samples) ∧
    mapped_id <$> added = range (len added).
Proof.
  intros Hlt Hlen Hs. exists (stars_from 0 0 samples).
  split; [|split].
  - rewrite (add_stars_stops_closed nb w samples) by done.
    unfold len. by rewrite length_stars_from.
  - apply length_stars_from.
  - unfold len. by rewrite range_seq, mapped_id_stars_from, length_stars_from.
Qed.

Lemma add_stars_too_few_clusters_witness :
  ∃ added : list mapped,
    add_stars short_notebook sample_world =
      Stops IndexError
        (mkNotebook (N_stars_per_cluster short_notebook)
           (clusters short_notebook)
           (session short_notebook ++ added) (len added))
        sample_world ∧
    length added = length (concat [[3.75; 1.125; 3.75]%float]) ∧
    mapped_id <$> added = range (len added).
Proof.
  apply (add_stars_too_few_clusters short_notebook sample_world
           [[3.75; 1.125; 3.75]%float]);
    [simpl; lia | reflexivity | exact short_notebook_samples].
Defined.

(** X10. When the first cluster holds no sample, as after the cell that
    makes the clusters has stopped on a negative size, the cell stops at
    once with the [AttributeError] for [d_obs]: [j] is 0 and nothing is
    staged. *)
Theorem add_stars_without_sample (nb : Notebook) (w : World) (c : instance) :
  clusters nb !! 0%nat = Some c →
  d_obs c = None →
  add_stars nb w =
    Stops (Propagated (AttributeError "d_obs"))
      (mkNotebook (N_stars_per_cluster nb) (clusters nb) (session nb) 0) w.
Proof.
  intros Hc Hobs. unfold add_stars, mbind, Cell_bind, set_j.
  change (range 10) with (range (Z.of_nat 10)). rewrite (range_seq 10).
  simpl. unfold mbind at 1, Cell_bind at 1, add_stars_of at 1.
  unfold mbind at 1, Cell_bind at 1.
  rewrite (on_cluster_found 0 _ _ _ c) by done.
  unfold getattr. rewrite Hobs. simpl.
  by rewrite list_insert_id by done.
Qed.

Lemma add_stars_without_sample_witness :
  add_stars (mkNotebook 2 [cluster] [] 9) sample_world =
    Stops (Propagated (AttributeError "d_obs"))
      (mkNotebook (N_stars_per_cluster (mkNotebook 2 [cluster] [] 9))
         (clusters (mkNotebook 2 [cluster] [] 9))
         (session (mkNotebook 2 [cluster] [] 9)) 0)
      sample_world.
Proof.
  apply (add_stars_without_sample (mkNotebook 2 [cluster] [] 9) sample_world
           cluster);
    reflexivity.
Defined.

(** ** The two cells, one after the other *)

(** X11. With a number of stars per cluster between 0 and [2^60 - 1], the
    longest float64 array that numpy accepts, and run after the cell that
    makes the clusters, the cell that adds the stars stages
    [10 * N_stars_per_cluster] stars behind the ten populations. Star [i] has id [i], belongs to population
    [i // N_stars_per_cluster], which is one of the ten staged ones, and its
    distance is made from deviate number [i] of the random source: star ids
    and deviates run in step. *)
Theorem clusters_then_stars (nb : Notebook) (w : World) :
  0 ≤ N_stars_per_cluster nb ≤ np.max_length →
  ∃ (nb' : Notebook) (added : list mapped),
    (make_clusters;; add_stars) nb w =
      Completes tt nb'
        (advance (10 * Z.to_nat (N_stars_per_cluster nb)) w) ∧
    session nb' =
      session nb
        ++ ((λ k, Population k (float_of_int k)) <$> range 10)
        ++ added ∧
    len added = 10 * N_stars_per_cluster nb ∧
    j nb' = 10 * N_stars_per_cluster nb ∧
    ∀ i : nat, Z.of_nat i < 10 * N_stars_per_cluster nb →
      0 ≤ Z.of_nat i `div` N_stars_per_cluster nb < 10 ∧
      added !! i =
        Some (Star (Z.of_nat i) (Z.of_nat i `div` N_stars_per_cluster nb)
                (float_of_int (Z.of_nat i `div` N_stars_per_cluster nb)
                 + (0.1 * float_of_int
                            (Z.of_nat i `div` N_stars_per_cluster nb))
                   * deviates (global_rng w)
                       (consumed (global_rng w) + i))%float).
Proof.
  intros Hn. set (n := N_stars_per_cluster nb) in *.
  set (sample_at := λ k : nat,
         np.add (float_of_int (Z.of_nat k))
           (np.multiply (0.1 * float_of_int (Z.of_nat k))
              (np.random.drawn (global_rng (advance (k * Z.to_nat n) w))
                 (Z.to_nat n)))).
  set (samples := sample_at <$> seq 0 10).
  assert (Forall (λ l, length l = Z.to_nat n) samples) as Huniform.
  { apply Forall_fmap, Forall_forall. intros k _. simpl.
    apply length_observations. }
  assert (∀ k : nat, (k ≤ 10)%nat →
            length (concat (take k samples)) = (k * Z.to_nat n)%nat)
    as Hoffset.
  { intros k Hk. rewrite (length_concat_uniform _ (Z.to_nat n))
      by by apply Forall_take.
    rewrite length_take. unfold samples. rewrite length_fmap, length_seq.
    by rewrite Nat.min_l by lia. }
  eexists _, (stars_from 0 0 samples).
  unfold mbind at 1, Cell_bind at 1.
  rewrite make_clusters_closed by done. fold n.
  rewrite (add_stars_closed _ _ samples); cycle 1.
  { unfold samples. by rewrite length_fmap, length_seq. }
  { intros k obs Hk. unfold samples in Hk.
    rewrite list_lookup_fmap in Hk.
    destruct (seq 0 10 !! k) as [k'|] eqn:Hk'; [|done].
    injection Hk as <-. apply lookup_seq in Hk' as [-> Hk'].
    exists (cluster_at w n k). split; [|done].
    cbn [clusters]. by rewrite list_lookup_fmap, lookup_seq_lt. }
  cbn [session N_stars_per_cluster clusters j].
  assert (len (concat samples) = 10 * n) as Htotal.
  { unfold len. rewrite <-(take_ge samples 10), Hoffset; [lia|lia|].
    unfold samples. by rewrite length_fmap, length_seq. }
  split; [reflexivity|]. split; [by rewrite <-app_assoc|].
  split; [unfold len; by rewrite length_stars_from|].
  split; [done|].
  intros i Hi.
  assert (0 < Z.to_nat n)%nat as Hpos by lia.
  assert (i < 10 * Z.to_nat n)%nat as Hi' by lia.
  set (k := (i / Z.to_nat n)%nat). set (p := (i mod Z.to_nat n)%nat).
  assert (i = (k * Z.to_nat n + p)%nat) as Hsplit.
  { unfold k, p. rewrite (Nat.div_mod_eq i (Z.to_nat n)) at 1. lia. }
  assert (p < Z.to_nat n)%nat as Hp by (apply Nat.mod_upper_bound; lia).
  assert (k < 10)%nat as Hk.
  { apply Nat.Div0.div_lt_upper_bound. lia. }
  assert (Z.of_nat i `div` n = Z.of_nat k) as Hdiv.
  { unfold k. rewrite Nat2Z.inj_div. f_equal. lia. }
  rewrite Hdiv. split; [lia|].
  rewrite Hsplit, <-(Hoffset k) by lia.
  rewrite (lookup_stars_from samples 0 0 k p (sample_at k)
             (float_of_int (Z.of_nat k)
              + (0.1 * float_of_int (Z.of_nat k))
                * deviates (global_rng w)
                    (consumed (global_rng w) + (k * Z.to_nat n + p)))%float).
  - rewrite Hoffset by lia. repeat f_equal; lia.
  - unfold samples. by rewrite list_lookup_fmap, lookup_seq_lt.
  - unfold sample_at. rewrite lookup_observations by done.
    simpl. by rewrite Nat.add_assoc.
Qed.

Lemma clusters_then_stars_witness :
  ∃ (nb' : Notebook) (added : list mapped),
    (make_clusters;; add_stars) small_notebook sample_world =
      Completes tt nb'
        (advance (10 * Z.to_nat (N_stars_per_cluster small_notebook))
           sample_world) ∧
    session nb' =
      session small_notebook
        ++ ((λ k, Population k (float_of_int k)) <$> range 10)
        ++ added ∧
    len added = 10 * N_stars_per_cluster small_notebook ∧
    j nb' = 10 * N_stars_per_cluster small_notebook ∧
    ∀ i : nat, Z.of_nat i < 10 * N_stars_per_cluster small_notebook →
      0 ≤ Z.of_nat i `div` N_stars_per_cluster small_notebook < 10 ∧
      added !! i =
        Some (Star (Z.of_nat i)
                (Z.of_nat i `div` N_stars_per_cluster small_notebook)
                (float_of_int
                   (Z.of_nat i `div` N_stars_per_cluster small_notebook)
                 + (0.1 * float_of_int
                            (Z.of_nat i
                               `div` N_stars_per_cluster small_notebook))
                   * deviates (global_rng sample_world)
                       (consumed (global_rng sample_world) + i))%float).
Proof.
  apply (clusters_then_stars small_notebook sample_world). by vm_compute.
Defined.

(** The stars staged in the concrete notebook: cluster 0 has no scatter,
    and the ids run from 0 to 19. *)
Example stars_of_made :
  take 4 (drop 11 (session (notebook_after (add_stars made sample_world))))
  = [Star 0 0 0; Star 1 0 0; Star 2 1 1.05; Star 3 1 0.875]%float ∧
  j (notebook_after (add_stars made sample_world)) = 20.
Proof. vm_compute. split; reflexivity. Qed.

(** ** The notebook's first computation *)

(** X12. Constructing a Population, generating a sample of a size between 0
    and [2^60 - 1], the longest float64 array that numpy accepts, with the
    default noise level and estimating the mean, as the notebook does with
    [cluster], raises nothing. The mean returned is
    numpy's mean of the observations [d + (0.1 * d) * z_i], the time is the
    difference of the two clock readings times 1000, and the Population
    that is left still holds the sample. *)
Theorem construct_generate_estimate `{numpy : NumPy}
    (d : float) (n : Z) (w : World) :
  0 ≤ n ≤ np.max_length →
  ∃ (p : instance) (obs : ndarray) (w' w'' : World),
    generate (Some n) None (final_self (new d w)) (final_world (new d w))
      = Returns tt p w' ∧
    d_obs p = Some obs ∧
    len obs = n ∧
    (∀ i : nat, Z.of_nat i < n →
       obs !! i =
         Some (d + (0.1 * d)
                   * deviates (global_rng w)
                       (consumed (global_rng w) + i))%float) ∧
    estimate_mean_distance p w' =
      Returns
        (np.mean obs,
         ((readings (clock w) (S (reads (clock w)))
           - readings (clock w) (reads (clock w))) * 1e3)%float)
        p w''.
Proof.
  intros Hn. eexists _, _, _, _.
  split.
  { rewrite generate_default_arguments. simpl.
    by apply generate_returns_sample. }
  unfold sample_of. cbn [d_obs].
  split; [done|]. split; [|split].
  - unfold len. rewrite length_observations. lia.
  - intros i Hi. by rewrite lookup_observations by lia.
  - by erewrite estimate_returns.
Qed.

Lemma construct_generate_estimate_witness :
  ∃ (p : instance) (obs : ndarray) (w' w'' : World),
    generate (Some 3) None (final_self (new 3 sample_world))
        (final_world (new 3 sample_world))
      = Returns tt p w' ∧
    d_obs p = Some obs ∧
    len obs = 3 ∧
    (∀ i : nat, Z.of_nat i < 3 →
       obs !! i =
         Some (3 + (0.1 * 3)
                   * deviates (global_rng sample_world)
                       (consumed (global_rng sample_world) + i))%float) ∧
    estimate_mean_distance (H := single_pass_numpy) p w' =
      Returns
        (np.mean (H := single_pass_numpy) obs,
         ((readings (clock sample_world) (S (reads (clock sample_world)))
           - readings (clock sample_world) (reads (clock sample_world)))
          * 1e3)%float)
        p w''.
Proof.
  apply (construct_generate_estimate (numpy := single_pass_numpy) 3 3
           sample_world).
  by vm_compute.
Defined.

(** * Sample sizes that numpy refuses *)

(** X13. A call with a sample size above [2^60 - 1], the longest float64
    array that numpy accepts, fails like a call with a negative one: it
    raises [ValueError] after [N] and [rms_error] have been overwritten,
    leaves the observed distances and the identifiers as they were, absent
    or stale, and consumes no deviate. *)
Theorem generate_refuses_oversized_sample
    (self : instance) (w : World) (d : float) (N : Z) (r : float) :
  distance self = Some d →
  np.max_length < N →
  raised (generate (Some N) (Some r) self w) = Some ValueError ∧
  StellarPopulation.N (final_self (generate (Some N) (Some r) self w))
    = Some N ∧
  rms_error (final_self (generate (Some N) (Some r) self w)) = Some r ∧
  d_obs (final_self (generate (Some N) (Some r) self w)) = d_obs self ∧
  id (final_self (generate (Some N) (Some r) self w)) = id self ∧
  final_world (generate (Some N) (Some r) self w) = w.
Proof. intros Hd HN. by erewrite generate_refused by done. Qed.

Lemma generate_refuses_oversized_sample_witness :
  raised (generate (Some (2 ^ 63)) (Some 0.2%float) (final_self sampled)
            (final_world sampled)) = Some ValueError ∧
  StellarPopulation.N
    (final_self (generate (Some (2 ^ 63)) (Some 0.2%float)
                   (final_self sampled) (final_world sampled)))
    = Some (2 ^ 63) ∧
  rms_error
    (final_self (generate (Some (2 ^ 63)) (Some 0.2%float)
                   (final_self sampled) (final_world sampled)))
    = Some 0.2%float ∧
  d_obs
    (final_self (generate (Some (2 ^ 63)) (Some 0.2%float)
                   (final_self sampled) (final_world sampled)))
    = d_obs (final_self sampled) ∧
  id
    (final_self (generate (Some (2 ^ 63)) (Some 0.2%float)
                   (final_self sampled) (final_world sampled)))
    = id (final_self sampled) ∧
  final_world
    (generate (Some (2 ^ 63)) (Some 0.2%float) (final_self sampled)
       (final_world sampled))
    = final_world sampled.
Proof.
  apply (generate_refuses_oversized_sample (final_self sampled)
           (final_world sampled) 3 (2 ^ 63) 0.2);
    [reflexivity | by vm_compute].
Defined.

Lemma make_clusters_stops_oversized nb w :
  np.max_length < N_stars_per_cluster nb →
  make_clusters nb w =
    Stops (Propagated ValueError)
      (mkNotebook (N_stars_per_cluster nb)
         [mkInstance (Some 0%float) (Some (N_stars_per_cluster nb))
            (Some 0.1%float) None None]
         (session nb) (j nb))
      w.
Proof.
  intros Hn. unfold make_clusters, mbind, Cell_bind, set_clusters.
  change (range 10) with (range (Z.of_nat 10)). rewrite (range_seq 10). simpl.
  unfold mbind, Cell_bind, add_cluster, mbind, Cell_bind, construct,
    clusters_append, set_clusters, global. simpl.
  rewrite (on_cluster_found 0 _ _ _ (final_self (new 0 w))) by done.
  rewrite generate_default_arguments. simpl.
  by erewrite generate_refused by done.
Qed.

(** X14. With a number of stars per cluster above [2^60 - 1] the cell that
    makes the clusters stops in its first turn with the [ValueError] of
    [generate], as it does with a negative number: [clusters] holds the one
    Population at distance 0.0, with the refused [N] stored and no sample,
    and nothing was staged in the session or taken from the random source. *)
Theorem make_clusters_oversized (nb : Notebook) (w : World) :
  np.max_length < N_stars_per_cluster nb →
  stopped (make_clusters nb w) = Some (Propagated ValueError) ∧
  clusters (notebook_after (make_clusters nb w)) =
    [mkInstance (Some 0%float) (Some (N_stars_per_cluster nb))
       (Some 0.1%float) None None] ∧
  session (notebook_after (make_clusters nb w)) = session nb ∧
  world_after (make_clusters nb w) = w.
Proof. intros Hn. by rewrite make_clusters_stops_oversized. Qed.

Lemma make_clusters_oversized_witness :
  stopped (make_clusters (mkNotebook (2 ^ 63) [cluster] [] 0) sample_world)
    = Some (Propagated ValueError) ∧
  clusters
    (notebook_after
       (make_clusters (mkNotebook (2 ^ 63) [cluster] [] 0) sample_world)) =
    [mkInstance (Some 0%float)
       (Some (N_stars_per_cluster (mkNotebook (2 ^ 63) [cluster] [] 0)))
       (Some 0.1%float) None None] ∧
  session
    (notebook_after
       (make_clusters (mkNotebook (2 ^ 63) [cluster] [] 0) sample_world))
    = session (mkNotebook (2 ^ 63) [cluster] [] 0) ∧
  world_after
    (make_clusters (mkNotebook (2 ^ 63) [cluster] [] 0) sample_world)
    = sample_world.
Proof.
  apply (make_clusters_oversized (mkNotebook (2 ^ 63) [cluster] [] 0)
           sample_world).
  by vm_compute.
Defined.
